(** * backend/llm/base.py: the [BaseBrainPicking] base class

    A shallow embedding of [src/backend/llm/base.py].  Methods of the class
    are computations over the instance they receive as [self]: they return a
    value or raise, and hand back the instance as they leave it. *)

From Stdlib Require Import Ascii String List ZArith Bool Floats.
Import ListNotations.

Local Open Scope string_scope.

(** ** Outcomes and methods *)

(** [NotImplementedError] is raised by the file itself, [ValueError] by
    the base model when an attribute assignment is refused. *)
Inductive exception : Type :=
| NotImplementedError (msg : string)
| ValueError (msg : string).

Inductive outcome (A : Type) : Type :=
| Return (a : A)
| Raise (e : exception).

Arguments Return {A} a.
Arguments Raise {A} e.

(** A method body run on the object [self : S]. *)
Definition method (S A : Type) : Type := S -> outcome A * S.

Definition ret {S A : Type} (a : A) : method S A :=
  fun self => (Return a, self).

Definition raise {S A : Type} (e : exception) : method S A :=
  fun self => (Raise e, self).

Definition bind {S A B : Type} (m : method S A) (k : A -> method S B)
  : method S B :=
  fun self =>
    match m self with
    | (Return a, self') => k a self'
    | (Raise e, self') => (Raise e, self')
    end.

(** Reads the object, as an attribute access [self.x] does. *)
Definition get_self {S : Type} : method S S :=
  fun self => (Return self, self).

Declare Scope method_scope.
Delimit Scope method_scope with method.

Notation "x <- m ;; k" := (bind m (fun x => k))
  (at level 61, m at next level, right associativity) : method_scope.
Notation "m ;;; k" := (bind m (fun _ => k))
  (at level 61, right associativity) : method_scope.

(** ** Imported names *)

(** [langchain.callbacks]: the two handler classes the file imports.  The
    callback list holds the class object itself. *)
Inductive callback_handler : Type :=
| AsyncCallbackHandler
| AsyncIteratorCallbackHandler.

(** [models.settings.BrainSettings], declared outside the file: only its
    [openai_api_key] is read, and the instance the class holds is a
    parameter of the methods below.  A Python value that is a [str] or
    [None] is an [option string]. *)
Module BrainSettings.
Record t : Type := { openai_api_key : option string }.
End BrainSettings.

(** ** The instance *)

(** An attribute that [__init__] assigns to and the class body does not
    declare: absent unless an assignment to it goes through. *)
Inductive attribute (A : Type) : Type :=
| Unset
| Assigned (v : A).

Arguments Unset {A}.
Arguments Assigned {A} v.

(** The declared fields (lines 26-32) and the two attributes assigned in
    [__init__]. *)
Record BaseBrainPicking : Type := {
  model_name : string;
  temperature : float;
  chat_id : option string;
  brain_id : option string;
  max_tokens : Z;
  streaming : bool;
  user_openai_api_key : option string;
  openai_api_key : attribute (option string);
  callbacks : attribute (option (list callback_handler))
}.

(** An attribute assignment [self.<name> = v]. *)
Inductive assignment : Type :=
| Assign_model_name (v : string)
| Assign_temperature (v : float)
| Assign_chat_id (v : option string)
| Assign_brain_id (v : option string)
| Assign_max_tokens (v : Z)
| Assign_streaming (v : bool)
| Assign_user_openai_api_key (v : option string)
| Assign_openai_api_key (v : option string)
| Assign_callbacks (v : option (list callback_handler)).

Definition assign (a : assignment) (self : BaseBrainPicking)
  : BaseBrainPicking :=
  match a with
  | Assign_model_name v =>
      {| model_name := v; temperature := temperature self;
         chat_id := chat_id self; brain_id := brain_id self;
         max_tokens := max_tokens self; streaming := streaming self;
         user_openai_api_key := user_openai_api_key self;
         openai_api_key := openai_api_key self;
         callbacks := callbacks self |}
  | Assign_temperature v =>
      {| model_name := model_name self; temperature := v;
         chat_id := chat_id self; brain_id := brain_id self;
         max_tokens := max_tokens self; streaming := streaming self;
         user_openai_api_key := user_openai_api_key self;
         openai_api_key := openai_api_key self;
         callbacks := callbacks self |}
  | Assign_chat_id v =>
      {| model_name := model_name self; temperature := temperature self;
         chat_id := v; brain_id := brain_id self;
         max_tokens := max_tokens self; streaming := streaming self;
         user_openai_api_key := user_openai_api_key self;
         openai_api_key := openai_api_key self;
         callbacks := callbacks self |}
  | Assign_brain_id v =>
      {| model_name := model_name self; temperature := temperature self;
         chat_id := chat_id self; brain_id := v;
         max_tokens := max_tokens self; streaming := streaming self;
         user_openai_api_key := user_openai_api_key self;
         openai_api_key := openai_api_key self;
         callbacks := callbacks self |}
  | Assign_max_tokens v =>
      {| model_name := model_name self; temperature := temperature self;
         chat_id := chat_id self; brain_id := brain_id self;
         max_tokens := v; streaming := streaming self;
         user_openai_api_key := user_openai_api_key self;
         openai_api_key := openai_api_key self;
         callbacks := callbacks self |}
  | Assign_streaming v =>
      {| model_name := model_name self; temperature := temperature self;
         chat_id := chat_id self; brain_id := brain_id self;
         max_tokens := max_tokens self; streaming := v;
         user_openai_api_key := user_openai_api_key self;
         openai_api_key := openai_api_key self;
         callbacks := callbacks self |}
  | Assign_user_openai_api_key v =>
      {| model_name := model_name self; temperature := temperature self;
         chat_id := chat_id self; brain_id := brain_id self;
         max_tokens := max_tokens self; streaming := streaming self;
         user_openai_api_key := v;
         openai_api_key := openai_api_key self;
         callbacks := callbacks self |}
  | Assign_openai_api_key v =>
      {| model_name := model_name self; temperature := temperature self;
         chat_id := chat_id self; brain_id := brain_id self;
         max_tokens := max_tokens self; streaming := streaming self;
         user_openai_api_key := user_openai_api_key self;
         openai_api_key := Assigned v;
         callbacks := callbacks self |}
  | Assign_callbacks v =>
      {| model_name := model_name self; temperature := temperature self;
         chat_id := chat_id self; brain_id := brain_id self;
         max_tokens := max_tokens self; streaming := streaming self;
         user_openai_api_key := user_openai_api_key self;
         openai_api_key := openai_api_key self;
         callbacks := Assigned v |}
  end.

(** Whether the assignment names a field the class body declares (lines
    26-32). *)
Definition declared (a : assignment) : bool :=
  match a with
  | Assign_openai_api_key _ => false
  | Assign_callbacks _ => false
  | _ => true
  end.

Definition attribute_name (a : assignment) : string :=
  match a with
  | Assign_model_name _ => "model_name"
  | Assign_temperature _ => "temperature"
  | Assign_chat_id _ => "chat_id"
  | Assign_brain_id _ => "brain_id"
  | Assign_max_tokens _ => "max_tokens"
  | Assign_streaming _ => "streaming"
  | Assign_user_openai_api_key _ => "user_openai_api_key"
  | Assign_openai_api_key _ => "openai_api_key"
  | Assign_callbacks _ => "callbacks"
  end.

Definition double_quote : string := String "034"%char EmptyString.

(** The message of the base model for a name that is not a field. *)
Definition no_field_message (name : string) : string :=
  double_quote ++ "BaseBrainPicking" ++ double_quote
  ++ " object has no field " ++ double_quote ++ name ++ double_quote.

(** The statement [self.<name> = v].  The class derives from pydantic's
    [BaseModel], whose [__setattr__] stores the value of a declared field
    and, since [Config] (lines 66-70) does not allow extra attributes,
    raises [ValueError] for any other name. *)
Definition setattr (a : assignment) : method BaseBrainPicking unit :=
  fun self =>
    if declared a
    then (Return tt, assign a self)
    else (Raise (ValueError (no_field_message (attribute_name a))), self).

(** The keyword arguments [data] of the constructor: each declared field
    is given or left out. *)
Record keyword_arguments : Type := {
  data_model_name : option string;
  data_temperature : option float;
  data_chat_id : option (option string);
  data_brain_id : option (option string);
  data_max_tokens : option Z;
  data_streaming : option bool;
  data_user_openai_api_key : option (option string)
}.

Definition no_arguments : keyword_arguments :=
  {| data_model_name := None; data_temperature := None;
     data_chat_id := None; data_brain_id := None;
     data_max_tokens := None; data_streaming := None;
     data_user_openai_api_key := None |}.

Definition given {A : Type} (supplied : option A) (default : A) : A :=
  match supplied with
  | Some v => v
  | None => default
  end.

(** The call to the parent initialiser with [data] (line 58): every
    declared field takes the value given for it, else the default of lines
    26-32.  The values in [data] already have the declared types; the file
    attaches no validator or bound to any field. *)
Definition super_init (data : keyword_arguments) : BaseBrainPicking :=
  {| model_name := given (data_model_name data) "gpt-3.5-turbo";
     temperature := given (data_temperature data) 0%float;
     chat_id := given (data_chat_id data) None;
     brain_id := given (data_brain_id data) None;
     max_tokens := given (data_max_tokens data) 256%Z;
     streaming := given (data_streaming data) false;
     user_openai_api_key := given (data_user_openai_api_key data) None;
     openai_api_key := Unset;
     callbacks := Unset |}.

(** ** Methods of [BaseBrainPicking] (lines 36-64) *)

Section BaseBrainPickingMethods.

(** [utils.constants.streaming_compatible_models], imported at line 11. *)
Variable streaming_compatible_models : list string.

(** The class attribute [brain_settings = BrainSettings()] (line 23). *)
Variable brain_settings : BrainSettings.t.

Local Open Scope method_scope.

(** [model_name in streaming_compatible_models] *)
Definition contains (l : list string) (x : string) : bool :=
  existsb (String.eqb x) l.

Definition _determine_api_key
    (openai_api_key user_openai_api_key : option string)
  : method BaseBrainPicking (option string) :=
  match user_openai_api_key with
  | Some _ => ret user_openai_api_key
  | None => ret openai_api_key
  end.

Definition _determine_streaming (model_name : string) (streaming : bool)
  : method BaseBrainPicking bool :=
  if contains streaming_compatible_models model_name && streaming
  then ret true
  else ret false.

(** Falls off the end, so returns [None], when [streaming] is false. *)
Definition _determine_callback_array (streaming : bool)
  : method BaseBrainPicking (option (list callback_handler)) :=
  if streaming
  then ret (Some [AsyncIteratorCallbackHandler])
  else ret None.

(** Lines 60-64, run on the object [super().__init__] has filled; an
    assignment that raises ends the run. *)
Definition init_resolve : method BaseBrainPicking unit :=
  self <- get_self ;;
  key <- _determine_api_key (BrainSettings.openai_api_key brain_settings)
                            (user_openai_api_key self) ;;
  setattr (Assign_openai_api_key key) ;;;
  self <- get_self ;;
  flag <- _determine_streaming (model_name self) (streaming self) ;;
  setattr (Assign_streaming flag) ;;;
  self <- get_self ;;
  handlers <- _determine_callback_array (streaming self) ;;
  setattr (Assign_callbacks handlers).

Definition __init__ (data : keyword_arguments)
  : outcome unit * BaseBrainPicking :=
  init_resolve (super_init data).

(** A constructor call of the class with keyword arguments [data]: the
    instance, when [__init__] returns. *)
Definition construct (data : keyword_arguments)
  : outcome BaseBrainPicking :=
  match __init__ data with
  | (Return _, self) => Return self
  | (Raise e, _) => Raise e
  end.

End BaseBrainPickingMethods.

(** ** The nested class [Config] (lines 66-174)

    Everything from line 72 on is indented under [class Config], so the
    functions below are attributes of [BaseBrainPicking.Config]. *)

(** Modelled from the spec: the type of a chat history entry, declared
    outside the file.  The data model gives it a human message, an
    assistant message and a timestamp; the source reads the first two as
    [user_message] and [assistant]. *)
Record ChatHistory : Type := {
  user_message : string;
  assistant : string;
  message_time : string
}.

Module Config.

Definition arbitrary_types_allowed : bool := true.

Section ConfigMethods.

(** The object passed as [self], and the classes of [langchain] that
    only occur as argument and result types. *)
Variables (Self LLM LLMChain ConversationalRetrievalChain : Type).

(** What the caller passes as [history] to the chain calls, and the
    element type of the stream. *)
Variables (History Token : Type).

(** A static method: it receives no [self]. *)
Definition format_chat_history (history : list ChatHistory)
  : list (string * string) :=
  map (fun chat => (user_message chat, assistant chat)) history.






Definition not_implemented_message : string :=
  "Async generation not implemented for this BrainPicking Class.".

(** An [async def]: the computation is what awaiting the call runs. *)
Definition _acall_chain (chain : ConversationalRetrievalChain)
    (question : string) (history : History)
  : method Self string :=
  raise (NotImplementedError not_implemented_message).


(** An [async def] with no [yield]: awaiting the call runs the body. *)
Definition generate_stream (question : string)
  : method Self (list Token) :=
  raise (NotImplementedError not_implemented_message).

End ConfigMethods.

End Config.

(** ** What can be done to an instance *)

Section Operations.

Variable streaming_compatible_models : list string.
Variables (LLM LLMChain ConversationalRetrievalChain History : Type).





End Operations.

(** ** Ranges the data model states *)



(** A resolver called twice in a row, both results kept. *)
Definition twice {S A : Type} (m : method S A) : method S (A * A) :=
  (first <- m ;; second <- m ;; ret (first, second))%method.



(** The key a user overrides the default with. *)
Definition effective_key (default_key user_key : option string)
  : option string :=
  match user_key with
  | Some key => Some key
  | None => default_key
  end.

(** * Properties *)

(** ** Membership in the streaming-capable models *)

Lemma contains_In (l : list string) (x : string) :
  contains l x = true <-> In x l.
Proof.
  unfold contains. rewrite existsb_exists. split.
  - intros [y [Hy Heq]]. apply String.eqb_eq in Heq. now subst.
  - intros Hx. exists x. split; [assumption | apply String.eqb_refl].
Qed.

(** ** The resolvers run on any instance *)

Lemma run_determine_api_key (k u : option string) (self : BaseBrainPicking) :
  _determine_api_key k u self = (Return (effective_key k u), self).
Proof. destruct u; reflexivity. Qed.

Lemma run_determine_streaming (models : list string) (name : string)
    (requested : bool) (self : BaseBrainPicking) :
  _determine_streaming models name requested self
  = (Return (contains models name && requested), self).
Proof.
  unfold _determine_streaming.
  destruct (contains models name && requested); reflexivity.
Qed.

Lemma run_determine_callback_array (enabled : bool) (self : BaseBrainPicking) :
  _determine_callback_array enabled self
  = (Return (if enabled then Some [AsyncIteratorCallbackHandler] else None),
     self).
Proof. destruct enabled; reflexivity. Qed.

(** ** Construction, step by step *)

Lemma run_init (models : list string) (bs : BrainSettings.t)
    (data : keyword_arguments) :
  __init__ models bs data
  = (Raise (ValueError (no_field_message "openai_api_key")),
     super_init data).
Proof.
  unfold __init__, init_resolve, bind, get_self.
  rewrite run_determine_api_key. reflexivity.
Qed.


(** ** The claims *)

(** C1.  The claim that a constructed instance holds the resolved key
    and flag is not met by the code: line 60 does compute the key the
    claim names, the user key when there is one and the key of the
    settings otherwise, but assigns it to [openai_api_key], which is not a
    declared field.  For every input the constructor raises [ValueError]
    there: no instance is built, the key is never stored and the flag of
    line 63 is never resolved. *)
Theorem init_raises_on_undeclared_key :
  forall (models : list string) (bs : BrainSettings.t)
         (data : keyword_arguments),
    let filled := super_init data in
    let user_key := given (data_user_openai_api_key data) None in
    (self <- get_self ;;
     _determine_api_key (BrainSettings.openai_api_key bs)
                        (user_openai_api_key self))%method filled
    = (Return (match user_key with
               | Some key => Some key
               | None => BrainSettings.openai_api_key bs
               end), filled) /\
    construct models bs data
    = Raise (ValueError (no_field_message "openai_api_key")) /\
    __init__ models bs data
    = (Raise (ValueError (no_field_message "openai_api_key")), filled) /\
    openai_api_key (snd (__init__ models bs data)) = Unset /\
    callbacks (snd (__init__ models bs data)) = Unset /\
    streaming (snd (__init__ models bs data))
    = given (data_streaming data) false.
Proof.
  intros models bs data filled user_key. subst filled user_key.
  unfold construct. rewrite run_init. cbn [fst snd].
  split; [| repeat split].
  unfold bind, get_self. rewrite run_determine_api_key. reflexivity.
Qed.

(** C2.  For a default key and a user key, the API-key resolver returns
    the user key exactly when the user key is not [None], and the default
    key otherwise; it never raises and leaves the instance as it was. *)
Theorem determine_api_key_spec :
  forall (default_key : string) (user_key : option string)
         (self : BaseBrainPicking),
    let run := _determine_api_key (Some default_key) user_key self in
    snd run = self /\
    (exists key, fst run = Return key) /\
    (fst run = Return user_key <-> user_key <> None) /\
    (user_key = None -> fst run = Return (Some default_key)).
Proof.
  intros default_key user_key self run. subst run.
  rewrite run_determine_api_key. cbn [fst snd].
  destruct user_key as [key|]; cbn [effective_key].
  - repeat split; try (eexists; reflexivity); congruence.
  - repeat split; try (eexists; reflexivity); congruence.
Qed.

(** C3.  The streaming resolver returns [True] exactly when the requested
    flag is set and the model name is among the streaming-capable models;
    with the flag unset it returns [False] for every model name. *)
Theorem determine_streaming_spec :
  forall (models : list string) (name : string) (requested : bool)
         (self : BaseBrainPicking),
    (exists flag,
        _determine_streaming models name requested self = (Return flag, self)
        /\ (flag = true <-> requested = true /\ In name models)) /\
    _determine_streaming models name false self = (Return false, self).
Proof.
  intros models name requested self. split.
  - exists (contains models name && requested). split.
    + apply run_determine_streaming.
    + rewrite andb_true_iff, contains_In. tauto.
  - rewrite run_determine_streaming. now rewrite andb_false_r.
Qed.

(** C4.  The callback resolver returns the one-element list holding the
    token-stream handler when streaming is enabled, and [None] when it is
    not. *)
Theorem determine_callback_array_spec :
  forall (self : BaseBrainPicking),
    _determine_callback_array true self
    = (Return (Some [AsyncIteratorCallbackHandler]), self) /\
    _determine_callback_array false self = (Return None, self).
Proof. intros self. split; reflexivity. Qed.

(** C5.  On the base class, for every question and history, awaiting the
    asynchronous chain call raises [NotImplementedError], and so does the
    streaming entry point: neither returns an answer. *)
Theorem async_entry_points_not_implemented :
  forall (Self Chain History Token : Type) (chain : Chain)
         (question : string) (history : History) (self : Self),
    Config._acall_chain Self Chain History chain question history self
    = (Raise (NotImplementedError Config.not_implemented_message), self) /\
    Config.generate_stream Self Token question self
    = (Raise (NotImplementedError Config.not_implemented_message), self).
Proof. intros. split; reflexivity. Qed.






(** C8.  Both resolvers are functions of their arguments alone: called
    twice in a row with the same arguments they return the same value
    twice, the value does not depend on the instance, and the instance is
    left as it was. *)
Theorem resolvers_deterministic :
  forall (models : list string) (default_key user_key : option string)
         (name : string) (requested : bool) (self : BaseBrainPicking),
    (exists key,
        twice (_determine_api_key default_key user_key) self
        = (Return (key, key), self) /\
        forall other : BaseBrainPicking,
          _determine_api_key default_key user_key other
          = (Return key, other)) /\
    (exists flag,
        twice (_determine_streaming models name requested) self
        = (Return (flag, flag), self) /\
        forall other : BaseBrainPicking,
          _determine_streaming models name requested other
          = (Return flag, other)).
Proof.
  intros models default_key user_key name requested self. split.
  - exists (effective_key default_key user_key). split.
    + unfold twice, bind. now rewrite !run_determine_api_key.
    + intros other. apply run_determine_api_key.
  - exists (contains models name && requested). split.
    + unfold twice, bind. now rewrite !run_determine_streaming.
    + intros other. apply run_determine_streaming.
Qed.

(** C9.  [format_chat_history] returns a list as long as the history, in
    the same order: its i-th element is the pair of the user message and
    the assistant message of the i-th entry.  Timestamps play no part. *)
Theorem format_chat_history_spec :
  forall (history : list ChatHistory),
    length (Config.format_chat_history history) = length history /\
    (forall i : nat,
        nth_error (Config.format_chat_history history) i
        = option_map (fun chat => (user_message chat, assistant chat))
                     (nth_error history i)) /\
    (forall stamp : ChatHistory -> string,
        Config.format_chat_history
          (map (fun chat => {| user_message := user_message chat;
                               assistant := assistant chat;
                               message_time := stamp chat |}) history)
        = Config.format_chat_history history).
Proof.
  intros history. unfold Config.format_chat_history.
  split; [apply length_map | split].
  - intros i. apply nth_error_map.
  - intros stamp. rewrite map_map. reflexivity.
Qed.

(** C10.  The API-key resolver tests for [None] only: with the empty
    string as user key it returns the empty string, not the default key,
    whatever the default key is. *)
Theorem empty_user_key_is_used :
  forall (default_key : option string) (self : BaseBrainPicking),
    _determine_api_key default_key (Some "") self
    = (Return (Some ""), self).
Proof. intros default_key self. reflexivity. Qed.

(** ** Further properties of the resolvers *)

(** X1.  The callback resolver fed with the flag the streaming resolver
    returns, the order of lines 63-64: the result is the single
    token-stream handler exactly when streaming was asked for with a
    streaming-capable model, and [None] in every other case, also when
    streaming was asked for. *)
Theorem callbacks_follow_resolved_streaming :
  forall (models : list string) (name : string) (requested : bool)
         (self : BaseBrainPicking),
    let run :=
      (flag <- _determine_streaming models name requested ;;
       _determine_callback_array flag)%method self in
    snd run = self /\
    (fst run = Return (Some [AsyncIteratorCallbackHandler]) <->
     requested = true /\ In name models) /\
    (fst run = Return None <-> requested = false \/ ~ In name models).
Proof.
  intros models name requested self run. subst run.
  unfold bind. rewrite run_determine_streaming.
  rewrite run_determine_callback_array. cbn [fst snd].
  pose proof (contains_In models name) as Hin.
  destruct (contains models name); destruct requested; cbn.
  - split; [reflexivity | split; split].
    + intros _. split; [reflexivity | now apply Hin].
    + reflexivity.
    + discriminate.
    + intros [H | H]; [discriminate H | exfalso; apply H; now apply Hin].
  - split; [reflexivity | split; split].
    + discriminate.
    + intros [H _]. discriminate H.
    + intros _. left. reflexivity.
    + reflexivity.
  - split; [reflexivity | split; split].
    + discriminate.
    + intros [_ H]. apply Hin in H. discriminate H.
    + intros _. right. intros H. apply Hin in H. discriminate H.
    + reflexivity.
  - split; [reflexivity | split; split].
    + discriminate.
    + intros [H _]. discriminate H.
    + intros _. left. reflexivity.
    + reflexivity.
Qed.

(** X3.  Resolving is idempotent: the streaming resolver given the flag
    it has just returned returns that flag again. *)
Theorem determine_streaming_idempotent :
  forall (models : list string) (name : string) (requested : bool)
         (self : BaseBrainPicking),
    (flag <- _determine_streaming models name requested ;;
     _determine_streaming models name flag)%method self
    = _determine_streaming models name requested self.
Proof.
  intros models name requested self. unfold bind.
  rewrite !run_determine_streaming.
  destruct (contains models name); destruct requested; reflexivity.
Qed.

(** X4.  Widening the streaming-capable models never switches streaming
    off: a model name and flag for which the resolver returns [True] under
    one list get [True] under every list that contains it. *)
Theorem determine_streaming_monotone :
  forall (models wider : list string) (name : string) (requested : bool)
         (self : BaseBrainPicking),
    incl models wider ->
    _determine_streaming models name requested self = (Return true, self) ->
    _determine_streaming wider name requested self = (Return true, self).
Proof.
  intros models wider name requested self Hincl.
  rewrite !run_determine_streaming. intros H.
  injection H as H. apply andb_true_iff in H. destruct H as [Hin Hreq].
  apply contains_In, Hincl, contains_In in Hin. now rewrite Hin, Hreq.
Qed.

Lemma determine_streaming_monotone_witness :
  let self := super_init no_arguments in
  incl ["gpt-4"] ["gpt-3.5-turbo"; "gpt-4"] /\
  _determine_streaming ["gpt-4"] "gpt-4" true self = (Return true, self) /\
  _determine_streaming ["gpt-3.5-turbo"; "gpt-4"] "gpt-4" true self
  = (Return true, self).
Proof.
  cbv zeta.
  assert (Hincl : incl ["gpt-4"] ["gpt-3.5-turbo"; "gpt-4"]).
  { intros x [<- | []]. right. left. reflexivity. }
  split; [exact Hincl | split; [reflexivity | ]].
  apply (determine_streaming_monotone ["gpt-4"]);
    [exact Hincl | reflexivity].
Defined.

(** X6.  A missing key is not an error of the API-key resolver: it
    returns [None] exactly when neither a user key nor a default key is
    there, and once a user key is there the default key plays no part. *)
Theorem determine_api_key_missing :
  forall (default_key other_default user_key : option string)
         (key : string) (self : BaseBrainPicking),
    (fst (_determine_api_key default_key user_key self) = Return None <->
     user_key = None /\ default_key = None) /\
    _determine_api_key default_key (Some key) self
    = _determine_api_key other_default (Some key) self.
Proof.
  intros default_key other_default user_key key self.
  rewrite run_determine_api_key. cbn [fst].
  split; [| reflexivity].
  destruct user_key as [k|]; cbn [effective_key].
  - split; [discriminate | intros [H _]; discriminate H].
  - split.
    + intros H. injection H as H. split; [reflexivity | exact H].
    + intros [_ H]. now rewrite H.
Qed.

(** ** Further properties of [Config] *)

(** X8.  Formatting follows the shape of the history: an empty history
    gives an empty list, the history after one more exchange formats to
    the earlier result with that exchange's pair appended, and joining or
    reversing histories joins or reverses the formatted lists. *)
Theorem format_chat_history_append :
  forall (earlier later : list ChatHistory) (chat : ChatHistory),
    Config.format_chat_history [] = [] /\
    Config.format_chat_history (earlier ++ [chat])%list
    = (Config.format_chat_history earlier
       ++ [(user_message chat, assistant chat)])%list /\
    Config.format_chat_history (earlier ++ later)%list
    = (Config.format_chat_history earlier
       ++ Config.format_chat_history later)%list /\
    Config.format_chat_history (rev earlier)
    = rev (Config.format_chat_history earlier).
Proof.
  intros earlier later chat. unfold Config.format_chat_history.
  split; [reflexivity | split; [| split]].
  - now rewrite map_app.
  - apply map_app.
  - apply map_rev.
Qed.

(** X9.  The formatted history holds the user messages and the assistant
    messages of the entries, each in order, and a pair occurs in it exactly
    when some entry of the history carries that pair of messages. *)
Theorem format_chat_history_messages :
  forall (history : list ChatHistory),
    map fst (Config.format_chat_history history)
    = map user_message history /\
    map snd (Config.format_chat_history history)
    = map assistant history /\
    (forall human ai : string,
        In (human, ai) (Config.format_chat_history history) <->
        exists chat : ChatHistory,
          In chat history /\
          user_message chat = human /\ assistant chat = ai).
Proof.
  intros history. unfold Config.format_chat_history.
  split; [| split].
  - rewrite map_map. reflexivity.
  - rewrite map_map. reflexivity.
  - intros human ai. rewrite in_map_iff. split.
    + intros [chat [Hpair Hin]]. injection Hpair as Hu Ha.
      exists chat. auto.
    + intros [chat [Hin [Hu Ha]]]. exists chat. subst. auto.
Qed.
